(** * DeploymentSuccess: the deployment result panel

    A shallow embedding of [src/components/DeploymentSuccess.tsx]: the four
    [useState] cells of the component, its event handlers
    ([copyToClipboard], [shareContract], [handleMetadataSave],
    [addTokenToMetaMask]), the mount effect ([checkMetadata]) and the parts
    of the render function that depend on the state.

    Handlers are written in a small state-and-exception monad over a
    [World]: the component state, the trace of calls made to the browser,
    the timers armed by [setTimeout] and the promises still awaited.  An
    [async] function is split at its [await]: the part that runs up to the
    [await], and the continuation that receives how the promise settled. *)

From Stdlib Require Import String Ascii List ZArith Bool Arith Lia.
Import ListNotations.
Local Open Scope string_scope.

(** ** JavaScript values *)

(** What [if (v)], [v ? a : b], [v && a] and [v || a] test. *)
Class Truthy (A : Type) := truthy : A -> bool.

#[export] Instance Truthy_string : Truthy string :=
  fun s => negb (String.eqb s "").

(** A number is falsy when it is zero. *)
#[export] Instance Truthy_number : Truthy Z :=
  fun n => negb (Z.eqb n 0).

(** [undefined] and [null] are falsy; a present value is tested itself. *)
#[export] Instance Truthy_optional {A} `{Truthy A} : Truthy (option A) :=
  fun o => match o with Some v => truthy v | None => false end.

(** [a || b] on an optional left operand. *)
Definition js_or {A} `{Truthy A} (a : option A) (b : A) : A :=
  match a with
  | Some v => if truthy v then v else b
  | None => b
  end.

(** [a || undefined]. *)
Definition js_or_undefined {A} `{Truthy A} (a : option A) : option A :=
  if truthy a then a else None.

(** [String.prototype.slice(start, end)]: negative indices count from the
    end, both are clamped to the string, and an empty range gives [""]. *)
Definition clamp_index (len i : Z) : Z :=
  if (i <? 0)%Z then Z.max (len + i) 0 else Z.min i len.

Definition slice (s : string) (start end_ : Z) : string :=
  let len := Z.of_nat (String.length s) in
  let from := clamp_index len start in
  let to := clamp_index len end_ in
  if (to <=? from)%Z then ""
  else substring (Z.to_nat from) (Z.to_nat (to - from)) s.

(** The value a thrown exception or a rejected promise carries. *)
Definition JsError := string.

(** How an awaited promise settles. *)
Inductive Outcome (A : Type) : Type :=
| Resolved (v : A)
| Rejected (e : JsError).
Arguments Resolved {A} v.
Arguments Rejected {A} e.

(** ** Props and records *)

Module Network.
Record t := { name : string; symbol : string }.
End Network.

Module TokenMetadata.
Record t := {
  name : option string;
  symbol : option string;
  logoUrl : option string;
  description : option string;
  tags : option (list string);
  websiteUrl : option string;
  twitterUrl : option string;
  telegramUrl : option string
}.
End TokenMetadata.

(** An object is always truthy. *)
#[export] Instance Truthy_TokenMetadata : Truthy TokenMetadata.t :=
  fun _ => true.

(** The [result] prop.  Its declaration is in [../types]; the fields are
    the ones the component reads.  [symbol] and [decimals] are read through
    [||] with a default, so they may be [undefined]. *)
Module DeploymentResult.
Record t := {
  contractAddress : string;
  transactionHash : string;
  network : Network.t;
  explorerUrl : string;
  gasUsed : string;
  deploymentCost : string;
  tokenName : option string;
  tokenSymbol : option string;
  symbol : option string;
  decimals : option Z
}.
End DeploymentResult.

(** The argument of [window.ethereum.request]. *)
Module WatchAsset.
Record options := {
  address : string;
  symbol : string;
  decimals : Z;
  image : string
}.
Record params := { type : string; opts : options }.
Record request := { method : string; args : params }.
End WatchAsset.

(** The argument of [navigator.share]. *)
Module ShareData.
Record t := { title : string; text : string; url : string }.
End ShareData.

(** What the page provides around the component. *)
Inductive CallResult := ReturnsPromise | ThrowsSync (e : JsError).

Record Env := {
  (** [navigator.share] is defined *)
  navigator_share : bool;
  (** [typeof window.ethereum !== 'undefined'] *)
  window_ethereum : bool;
  (** whether the call [metadataService.getTokenMetadata(address)] hands
      back a promise or throws before it does *)
  getTokenMetadata_call : string -> CallResult
}.

(** ** Component state *)

Record State := {
  copied : option string;
  showMetadataForm : bool;
  tokenMetadata : option TokenMetadata.t;
  isLoadingMetadata : bool
}.

(** The arguments of [React.useState]. *)
Definition initialState : State :=
  {| copied := None; showMetadataForm := false;
     tokenMetadata := None; isLoadingMetadata := false |}.

(** Calls that leave the component, in the order they are made. *)
Inductive Effect :=
| ClipboardWriteText (text : string)
| Alert (message : string)
| ConsoleError (message : string) (error : JsError)
| EthereumRequest (req : WatchAsset.request)
| NavigatorShare (data : ShareData.t)
| GetTokenMetadata (address : string).

(** The only function handed to [setTimeout] is [() => setCopied(null)]. *)
Inductive Callback := ClearCopied.

Record Timer := { due : nat; callback : Callback }.

Record World := {
  ui : State;
  effects : list Effect;
  (** armed timers, ordered by the time they are due *)
  timers : list Timer;
  (** milliseconds since the page was loaded *)
  clock : nat;
  (** promises awaited by a suspended [async] function *)
  pendingFetch : nat;
  pendingShare : nat;
  pendingRequest : nat;
  (** errors no handler caught *)
  uncaught : list JsError
}.

Definition initialWorld : World :=
  {| ui := initialState; effects := []; timers := []; clock := 0;
     pendingFetch := 0; pendingShare := 0; pendingRequest := 0;
     uncaught := [] |}.

(** ** The handler monad *)

Inductive Completion (A : Type) : Type :=
| Normal (v : A)
| Throw (e : JsError).
Arguments Normal {A} v.
Arguments Throw {A} e.

Definition M (A : Type) : Type := World -> Completion A * World.

Definition ret {A} (v : A) : M A := fun w => (Normal v, w).

Definition bind {A B} (m : M A) (k : A -> M B) : M B :=
  fun w =>
    match m w with
    | (Normal v, w') => k v w'
    | (Throw e, w') => (Throw e, w')
    end.

Definition throw {A} (e : JsError) : M A := fun w => (Throw e, w).

Declare Scope js_scope.
Delimit Scope js_scope with js.
Notation "x <- m ;; k" := (bind m (fun x => k))
  (at level 61, m at next level, right associativity) : js_scope.
Notation "m ;; k" := (bind m (fun _ => k))
  (at level 61, right associativity) : js_scope.
Local Open Scope js_scope.

(** [try { body } catch (error) { handler }] *)
Definition try_catch {A} (body : M A) (handler : JsError -> M A) : M A :=
  fun w =>
    match body w with
    | (Normal v, w') => (Normal v, w')
    | (Throw e, w') => handler e w'
    end.

(** [try { body } finally { finalizer }] *)
Definition try_finally {A} (body : M A) (finalizer : M unit) : M A :=
  fun w =>
    let (c, w') := body w in
    match finalizer w' with
    | (Normal _, w'') => (c, w'')
    | (Throw e, w'') => (Throw e, w'')
    end.

(** [await p] once [p] has settled. *)
Definition await {A} (p : Outcome A) : M A :=
  match p with
  | Resolved v => ret v
  | Rejected e => throw e
  end.

Definition modify (f : World -> World) : M unit := fun w => (Normal tt, f w).

Definition set_ui (f : State -> State) : M unit :=
  modify (fun w =>
    {| ui := f (ui w); effects := effects w; timers := timers w;
       clock := clock w; pendingFetch := pendingFetch w;
       pendingShare := pendingShare w; pendingRequest := pendingRequest w;
       uncaught := uncaught w |}).

Definition setCopied (v : option string) : M unit :=
  set_ui (fun s =>
    {| copied := v; showMetadataForm := showMetadataForm s;
       tokenMetadata := tokenMetadata s;
       isLoadingMetadata := isLoadingMetadata s |}).

Definition setShowMetadataForm (v : bool) : M unit :=
  set_ui (fun s =>
    {| copied := copied s; showMetadataForm := v;
       tokenMetadata := tokenMetadata s;
       isLoadingMetadata := isLoadingMetadata s |}).

Definition setTokenMetadata (v : option TokenMetadata.t) : M unit :=
  set_ui (fun s =>
    {| copied := copied s; showMetadataForm := showMetadataForm s;
       tokenMetadata := v;
       isLoadingMetadata := isLoadingMetadata s |}).

Definition setIsLoadingMetadata (v : bool) : M unit :=
  set_ui (fun s =>
    {| copied := copied s; showMetadataForm := showMetadataForm s;
       tokenMetadata := tokenMetadata s;
       isLoadingMetadata := v |}).

Definition emit (e : Effect) : M unit :=
  modify (fun w =>
    {| ui := ui w; effects := effects w ++ [e]; timers := timers w;
       clock := clock w; pendingFetch := pendingFetch w;
       pendingShare := pendingShare w; pendingRequest := pendingRequest w;
       uncaught := uncaught w |}).

(** Timers fire in the order of their due time, and in the order they were
    armed when due together. *)
Fixpoint schedule (t : Timer) (l : list Timer) : list Timer :=
  match l with
  | [] => [t]
  | t' :: l' =>
      if (due t <? due t')%nat then t :: t' :: l' else t' :: schedule t l'
  end.

Definition setTimeout (cb : Callback) (delay : nat) : M unit :=
  modify (fun w =>
    {| ui := ui w; effects := effects w;
       timers := schedule {| due := clock w + delay; callback := cb |} (timers w);
       clock := clock w; pendingFetch := pendingFetch w;
       pendingShare := pendingShare w; pendingRequest := pendingRequest w;
       uncaught := uncaught w |}).

Inductive Await := AwaitFetch | AwaitShare | AwaitRequest.

(** The handler stops at an [await]; the promise is now pending. *)
Definition suspend (a : Await) : M unit :=
  modify (fun w =>
    {| ui := ui w; effects := effects w; timers := timers w; clock := clock w;
       pendingFetch :=
         match a with AwaitFetch => S (pendingFetch w) | _ => pendingFetch w end;
       pendingShare :=
         match a with AwaitShare => S (pendingShare w) | _ => pendingShare w end;
       pendingRequest :=
         match a with AwaitRequest => S (pendingRequest w) | _ => pendingRequest w end;
       uncaught := uncaught w |}).

(** The promise of a suspended handler settles, if there is one. *)
Definition settle (a : Await) (w : World) : option World :=
  let take n := match n with 0 => None | S n' => Some n' end in
  match a with
  | AwaitFetch =>
      match take (pendingFetch w) with
      | Some n =>
          Some {| ui := ui w; effects := effects w; timers := timers w;
                  clock := clock w; pendingFetch := n;
                  pendingShare := pendingShare w;
                  pendingRequest := pendingRequest w; uncaught := uncaught w |}
      | None => None
      end
  | AwaitShare =>
      match take (pendingShare w) with
      | Some n =>
          Some {| ui := ui w; effects := effects w; timers := timers w;
                  clock := clock w; pendingFetch := pendingFetch w;
                  pendingShare := n;
                  pendingRequest := pendingRequest w; uncaught := uncaught w |}
      | None => None
      end
  | AwaitRequest =>
      match take (pendingRequest w) with
      | Some n =>
          Some {| ui := ui w; effects := effects w; timers := timers w;
                  clock := clock w; pendingFetch := pendingFetch w;
                  pendingShare := pendingShare w;
                  pendingRequest := n; uncaught := uncaught w |}
      | None => None
      end
  end.

(** Running a handler to completion; an error nothing caught is reported
    by the page. *)
Definition exec (m : M unit) (w : World) : World :=
  match m w with
  | (Normal _, w') => w'
  | (Throw e, w') =>
      {| ui := ui w'; effects := effects w'; timers := timers w';
         clock := clock w'; pendingFetch := pendingFetch w';
         pendingShare := pendingShare w'; pendingRequest := pendingRequest w';
         uncaught := uncaught w' ++ [e] |}
  end.

Definition get_ui : M State := fun w => (Normal (ui w), w).

Definition console_error (message : string) (error : JsError) : M unit :=
  emit (ConsoleError message error).

(** ** The component *)

Section Component.

Variable result : DeploymentResult.t.
Variable env : Env.

(** *** Mount effect: [checkMetadata] *)

(** After the [await]: the rest of the [try], its [catch] and its
    [finally]. *)
Definition checkMetadata_resume (p : Outcome (option TokenMetadata.t)) : M unit :=
  try_finally
    (try_catch
       (metadata <- await p ;;
        setTokenMetadata metadata ;;
        if truthy metadata then setShowMetadataForm false else ret tt)
       (fun error => console_error "Error fetching token metadata:" error))
    (setIsLoadingMetadata false).

(** Up to the [await].  A lookup that throws before it returns a promise
    is caught by the same [try]. *)
Definition checkMetadata : M unit :=
  if truthy (DeploymentResult.contractAddress result) then
    setIsLoadingMetadata true ;;
    emit (GetTokenMetadata (DeploymentResult.contractAddress result)) ;;
    match getTokenMetadata_call env (DeploymentResult.contractAddress result) with
    | ReturnsPromise => suspend AwaitFetch
    | ThrowsSync e => checkMetadata_resume (Rejected e)
    end
  else ret tt.

(** *** Handlers *)

Definition copyToClipboard (text type : string) : M unit :=
  emit (ClipboardWriteText text) ;;
  setCopied (Some type) ;;
  setTimeout ClearCopied 2000.

Definition shareData : ShareData.t :=
  {| ShareData.title := "Token Contract Deployed";
     ShareData.text :=
       "Check out my new token contract: "
         ++ DeploymentResult.contractAddress result;
     ShareData.url := DeploymentResult.explorerUrl result |}.

Definition shareContract_resume (p : Outcome unit) : M unit :=
  try_catch
    (await p)
    (fun err =>
       console_error "Error sharing:" err ;;
       copyToClipboard (DeploymentResult.explorerUrl result) "share").

Definition shareContract : M unit :=
  if navigator_share env then
    emit (NavigatorShare shareData) ;;
    suspend AwaitShare
  else
    copyToClipboard (DeploymentResult.explorerUrl result) "share".

Definition handleMetadataSave (metadata : TokenMetadata.t) : M unit :=
  setTokenMetadata (Some metadata) ;;
  setShowMetadataForm false.

Definition watchAssetRequest : WatchAsset.request :=
  {| WatchAsset.method := "wallet_watchAsset";
     WatchAsset.args :=
       {| WatchAsset.type := "ERC20";
          WatchAsset.opts :=
            {| WatchAsset.address := DeploymentResult.contractAddress result;
               WatchAsset.symbol := js_or (DeploymentResult.symbol result) "TOKEN";
               WatchAsset.decimals := js_or (DeploymentResult.decimals result) 18%Z;
               WatchAsset.image := "" |} |} |}.

Definition addTokenToMetaMask_resume (p : Outcome unit) : M unit :=
  try_catch
    (await p)
    (fun error => console_error "Error adding token to MetaMask:" error).

Definition addTokenToMetaMask : M unit :=
  if negb (window_ethereum env) then
    emit (Alert "MetaMask is not installed")
  else
    emit (EthereumRequest watchAssetRequest) ;;
    suspend AwaitRequest.

(** [onClick={() => setShowMetadataForm(!showMetadataForm)}] *)
Definition toggleMetadataForm : M unit :=
  s <- get_ui ;;
  setShowMetadataForm (negb (showMetadataForm s)).

(** *** Render *)

(** [{result.transactionHash.slice(0, 20)}...] *)
Definition renderedTransactionHash : string :=
  slice (DeploymentResult.transactionHash result) 0 20 ++ "...".


(** The body of the "Token Metadata" card. *)
Inductive MetadataPanel :=
| Spinner
| MetadataForm (initialMetadata : option TokenMetadata.t)
| MetadataView (metadata : TokenMetadata.t)
| AddMetadataPrompt.

Definition metadataPanel (s : State) : MetadataPanel :=
  if isLoadingMetadata s then Spinner
  else if showMetadataForm s then
    MetadataForm (js_or_undefined (tokenMetadata s))
  else
    match tokenMetadata s with
    | Some m => MetadataView m
    | None => AddMetadataPrompt
    end.

(** The label of the button in the card's header, when it is rendered. *)
Definition metadataToggleLabel (s : State) : option string :=
  if negb (isLoadingMetadata s) then
    Some (if showMetadataForm s then "Hide Form"
          else if truthy (tokenMetadata s) then "Edit Metadata"
          else "Add Metadata")
  else None.

(** *** Events *)

Inductive Event :=
| ClickCopyAddress
| ClickCopyTx
| ClickShare
| ClickAddToMetaMask
| ClickToggleForm
| ClickAddTokenMetadata
| FormSave (metadata : TokenMetadata.t)
| FetchSettled (p : Outcome (option TokenMetadata.t))
| ShareSettled (p : Outcome unit)
| RequestSettled (p : Outcome unit)
| Elapse (ms : nat).

Definition runCallback (cb : Callback) : M unit :=
  match cb with
  | ClearCopied => setCopied None
  end.

Definition isDue (now : nat) (t : Timer) : bool := (due t <=? now)%nat.

(** [ms] milliseconds pass: the timers due by then fire, in order. *)
Definition elapse (ms : nat) (w : World) : World :=
  let now := clock w + ms in
  fold_left (fun w' t => exec (runCallback (callback t)) w')
    (filter (isDue now) (timers w))
    {| ui := ui w; effects := effects w;
       timers := filter (fun t => negb (isDue now t)) (timers w);
       clock := now; pendingFetch := pendingFetch w;
       pendingShare := pendingShare w; pendingRequest := pendingRequest w;
       uncaught := uncaught w |}.

(** One event of the page.  [None]: the event cannot happen in this
    world (the button is not rendered, or no such promise is awaited). *)
Definition step (w : World) (ev : Event) : option World :=
  match ev with
  | ClickCopyAddress =>
      Some (exec (copyToClipboard (DeploymentResult.contractAddress result) "address") w)
  | ClickCopyTx =>
      Some (exec (copyToClipboard (DeploymentResult.transactionHash result) "tx") w)
  | ClickShare => Some (exec shareContract w)
  | ClickAddToMetaMask => Some (exec addTokenToMetaMask w)
  | ClickToggleForm =>
      match metadataToggleLabel (ui w) with
      | Some _ => Some (exec toggleMetadataForm w)
      | None => None
      end
  | ClickAddTokenMetadata =>
      match metadataPanel (ui w) with
      | AddMetadataPrompt => Some (exec (setShowMetadataForm true) w)
      | _ => None
      end
  | FormSave metadata =>
      match metadataPanel (ui w) with
      | MetadataForm _ => Some (exec (handleMetadataSave metadata) w)
      | _ => None
      end
  | FetchSettled p => option_map (exec (checkMetadata_resume p)) (settle AwaitFetch w)
  | ShareSettled p => option_map (exec (shareContract_resume p)) (settle AwaitShare w)
  | RequestSettled p =>
      option_map (exec (addTokenToMetaMask_resume p)) (settle AwaitRequest w)
  | Elapse ms => Some (elapse ms w)
  end.

Fixpoint run (w : World) (evs : list Event) : option World :=
  match evs with
  | [] => Some w
  | ev :: evs' =>
      match step w ev with
      | Some w' => run w' evs'
      | None => None
      end
  end.

(** The world once the component is mounted and its effect has run. *)
Definition mount : World := exec checkMetadata initialWorld.


Definition isFetchSettled (ev : Event) : bool :=
  match ev with FetchSettled _ => true | _ => false end.

(** The two buttons that open the form. *)
Definition opensForm (ev : Event) : bool :=
  match ev with
  | ClickToggleForm | ClickAddTokenMetadata => true
  | _ => false
  end.

End Component.


(** ** Sample inputs *)

Definition sampleNetwork : Network.t :=
  {| Network.name := "Ethereum"; Network.symbol := "ETH" |}.

Definition sampleResult : DeploymentResult.t :=
  {| DeploymentResult.contractAddress := "0x5FbDB2315678afecb367f032d93F642f64180aa3";
     DeploymentResult.transactionHash :=
       "0x9fc76417374aa880d4449a1f7f31ec597f00b1f6f3dd2d66f4c9c6c445836d8b";
     DeploymentResult.network := sampleNetwork;
     DeploymentResult.explorerUrl :=
       "https://etherscan.io/address/0x5FbDB2315678afecb367f032d93F642f64180aa3";
     DeploymentResult.gasUsed := "1204567";
     DeploymentResult.deploymentCost := "0.0241";
     DeploymentResult.tokenName := Some "Sample";
     DeploymentResult.tokenSymbol := Some "SMP";
     DeploymentResult.symbol := Some "SMP";
     DeploymentResult.decimals := Some 6%Z |}.

(** A token whose units cannot be divided. *)
Definition zeroDecimalsResult : DeploymentResult.t :=
  {| DeploymentResult.contractAddress := DeploymentResult.contractAddress sampleResult;
     DeploymentResult.transactionHash := DeploymentResult.transactionHash sampleResult;
     DeploymentResult.network := sampleNetwork;
     DeploymentResult.explorerUrl := DeploymentResult.explorerUrl sampleResult;
     DeploymentResult.gasUsed := "1204567";
     DeploymentResult.deploymentCost := "0.0241";
     DeploymentResult.tokenName := Some "Ticket";
     DeploymentResult.tokenSymbol := Some "TKT";
     DeploymentResult.symbol := Some "TKT";
     DeploymentResult.decimals := Some 0%Z |}.

(** A result without a contract address. *)
Definition noAddressResult : DeploymentResult.t :=
  {| DeploymentResult.contractAddress := "";
     DeploymentResult.transactionHash := DeploymentResult.transactionHash sampleResult;
     DeploymentResult.network := sampleNetwork;
     DeploymentResult.explorerUrl := "";
     DeploymentResult.gasUsed := "0";
     DeploymentResult.deploymentCost := "0";
     DeploymentResult.tokenName := None;
     DeploymentResult.tokenSymbol := None;
     DeploymentResult.symbol := None;
     DeploymentResult.decimals := None |}.

Definition sampleMetadata : TokenMetadata.t :=
  {| TokenMetadata.name := Some "Sample";
     TokenMetadata.symbol := Some "SMP";
     TokenMetadata.logoUrl := None;
     TokenMetadata.description := Some "A sample token";
     TokenMetadata.tags := Some ["defi"];
     TokenMetadata.websiteUrl := None;
     TokenMetadata.twitterUrl := None;
     TokenMetadata.telegramUrl := None |}.

(** A browser with a wallet extension and a share sheet. *)
Definition fullEnv : Env :=
  {| navigator_share := true; window_ethereum := true;
     getTokenMetadata_call := fun _ => ReturnsPromise |}.

(** A browser with neither. *)
Definition bareEnv : Env :=
  {| navigator_share := false; window_ethereum := false;
     getTokenMetadata_call := fun _ => ReturnsPromise |}.

(** A page whose metadata client throws as soon as it is called. *)
Definition brokenServiceEnv : Env :=
  {| navigator_share := false; window_ethereum := false;
     getTokenMetadata_call := fun _ => ThrowsSync "network down" |}.

(** ** Phases of the metadata card *)

(** The lookup started by the mount effect has not settled yet. *)
Definition awaitingMetadata (w : World) : Prop :=
  isLoadingMetadata (ui w) = true
  /\ showMetadataForm (ui w) = false
  /\ tokenMetadata (ui w) = None
  /\ pendingFetch w = 1
  /\ uncaught w = [].

(** No lookup is under way, no record is known and the form is closed. *)
Definition emptyMetadata (w : World) : Prop :=
  isLoadingMetadata (ui w) = false
  /\ showMetadataForm (ui w) = false
  /\ tokenMetadata (ui w) = None
  /\ pendingFetch w = 0.

Definition isGetTokenMetadata (e : Effect) : bool :=
  match e with GetTokenMetadata _ => true | _ => false end.

(** No lookup was ever started. *)
Definition neverFetched (w : World) : Prop :=
  isLoadingMetadata (ui w) = false
  /\ pendingFetch w = 0
  /\ forallb (fun e => negb (isGetTokenMetadata e)) (effects w) = true.

(** ** Observations on a session *)

Definition isEthereumRequest (e : Effect) : bool :=
  match e with EthereumRequest _ => true | _ => false end.

Definition isAlert (e : Effect) : bool :=
  match e with Alert _ => true | _ => false end.

Definition isClickAddToMetaMask (ev : Event) : bool :=
  match ev with ClickAddToMetaMask => true | _ => false end.

Definition isFormSave (ev : Event) : bool :=
  match ev with FormSave _ => true | _ => false end.

(** The events of the "Token Metadata" card; the others belong to the
    result card, the action cards and the clock. *)
Definition isMetadataEvent (ev : Event) : bool :=
  match ev with
  | ClickToggleForm | ClickAddTokenMetadata | FormSave _ | FetchSettled _ => true
  | _ => false
  end.

(** The calls the component is written to make for a given [result]. *)
Definition expectedEffect (result : DeploymentResult.t) (e : Effect) : Prop :=
  match e with
  | ClipboardWriteText text =>
      text = DeploymentResult.contractAddress result
      \/ text = DeploymentResult.transactionHash result
      \/ text = DeploymentResult.explorerUrl result
  | Alert message => message = "MetaMask is not installed"
  | ConsoleError message _ =>
      message = "Error fetching token metadata:"
      \/ message = "Error sharing:"
      \/ message = "Error adding token to MetaMask:"
  | EthereumRequest req => req = watchAssetRequest result
  | NavigatorShare data => data = shareData result
  | GetTokenMetadata address => address = DeploymentResult.contractAddress result
  end.

(** The keys handed to [copyToClipboard]. *)
Definition knownCopiedKey (s : State) : Prop :=
  copied s = None \/ copied s = Some "address"
  \/ copied s = Some "tx" \/ copied s = Some "share".

(** Every armed timer is due within the next 2000ms, and a flag that is
    set has a timer behind it. *)
Definition timersWithinDelay (w : World) : Prop :=
  (forall t, In t (timers w) -> clock w < due t /\ due t <= clock w + 2000)
  /\ (copied (ui w) <> None -> timers w <> []).

(** ** The read view of a record *)

(** [a || b] where the right operand may be [undefined] too. *)
Definition js_or_optional {A} `{Truthy A} (a b : option A) : option A :=
  if truthy a then a else b.

(** [{tokenMetadata.name || result.tokenName}] *)
Definition viewHeading (result : DeploymentResult.t) (m : TokenMetadata.t)
  : option string :=
  js_or_optional (TokenMetadata.name m) (DeploymentResult.tokenName result).

(** [{tokenMetadata.symbol || result.tokenSymbol}] *)
Definition viewSubheading (result : DeploymentResult.t) (m : TokenMetadata.t)
  : option string :=
  js_or_optional (TokenMetadata.symbol m) (DeploymentResult.tokenSymbol result).

(** The logo: the image with its [alt] text when the record has a logo
    URL, the placeholder icon ([None]) otherwise. *)
Definition viewLogo (m : TokenMetadata.t) : option (string * string) :=
  match TokenMetadata.logoUrl m with
  | Some url =>
      if truthy url then Some (url, js_or (TokenMetadata.name m) "Token logo")
      else None
  | None => None
  end.

(** [{tokenMetadata.tags && tokenMetadata.tags.length > 0 && ...map...}]:
    one chip per tag. *)
Definition viewTags (m : TokenMetadata.t) : list string :=
  match TokenMetadata.tags m with
  | Some tags => if (0 <? List.length tags)%nat then tags else []
  | None => []
  end.

(** The links under the description, each with its target. *)
Definition viewLinks (m : TokenMetadata.t) : list (string * string) :=
  let link (label : string) (url : option string) :=
    match url with
    | Some u => if truthy u then [(label, u)] else []
    | None => []
    end in
  (link "Website" (TokenMetadata.websiteUrl m)
   ++ link "Twitter" (TokenMetadata.twitterUrl m)
   ++ link "Telegram" (TokenMetadata.telegramUrl m))%list.

(** ** Strings *)

Lemma list_ascii_of_string_append (a b : string) :
  list_ascii_of_string (a ++ b)
  = (list_ascii_of_string a ++ list_ascii_of_string b)%list.
Proof.
  induction a as [|c a IH]; simpl; [reflexivity | now rewrite IH].
Qed.

Lemma list_ascii_of_substring_0 (n : nat) (s : string) :
  list_ascii_of_string (substring 0 n s) = firstn n (list_ascii_of_string s).
Proof.
  revert n; induction s as [|c s IH]; intros [|n]; simpl; try reflexivity.
  now rewrite IH.
Qed.

Lemma length_list_ascii_of_string (s : string) :
  List.length (list_ascii_of_string s) = String.length s.
Proof.
  induction s as [|c s IH]; simpl; [reflexivity | now rewrite IH].
Qed.

(** A prefix slice of a string at least as long as the prefix. *)
Lemma slice_prefix (s : string) (n : nat) :
  0 < n -> n <= String.length s ->
  slice s 0 (Z.of_nat n) = substring 0 n s.
Proof.
  intros Hpos Hlen. unfold slice, clamp_index.
  replace (0 <? 0)%Z with false by reflexivity.
  destruct (Z.ltb_spec (Z.of_nat n) 0) as [Hneg|_]; [lia|].
  rewrite Z.min_l by lia. rewrite Z.min_l by lia.
  destruct (Z.leb_spec (Z.of_nat n) 0) as [Hle|_]; [lia|].
  simpl Z.to_nat. rewrite Z.sub_0_r, Nat2Z.id. reflexivity.
Qed.

(** ** The result card *)

(** C3. When the transaction hash has more than 20 characters, what is
    rendered for it is its first 20 characters followed by three dots: 23
    characters in all. *)
Theorem renderedTransactionHash_truncates (result : DeploymentResult.t) :
  20 < String.length (DeploymentResult.transactionHash result) ->
  list_ascii_of_string (renderedTransactionHash result)
  = (firstn 20 (list_ascii_of_string (DeploymentResult.transactionHash result))
       ++ ["."; "."; "."])%list%char
  /\ String.length (renderedTransactionHash result) = 23.
Proof.
  intros Hlen. unfold renderedTransactionHash.
  change 20%Z with (Z.of_nat 20).
  rewrite slice_prefix by lia.
  assert (Hchars :
    list_ascii_of_string
      (substring 0 20 (DeploymentResult.transactionHash result) ++ "...")
    = (firstn 20 (list_ascii_of_string (DeploymentResult.transactionHash result))
         ++ ["."; "."; "."])%list%char).
  { rewrite list_ascii_of_string_append, list_ascii_of_substring_0. reflexivity. }
  split; [exact Hchars|].
  rewrite <- length_list_ascii_of_string, Hchars, length_app, length_firstn.
  rewrite length_list_ascii_of_string. simpl List.length. lia.
Qed.

Lemma renderedTransactionHash_truncates_witness :
  list_ascii_of_string (renderedTransactionHash sampleResult)
  = (firstn 20 (list_ascii_of_string (DeploymentResult.transactionHash sampleResult))
       ++ ["."; "."; "."])%list%char
  /\ String.length (renderedTransactionHash sampleResult) = 23.
Proof.
  apply (renderedTransactionHash_truncates sampleResult). simpl. lia.
Defined.

(** ** Wallet registration *)

(** With a provider, one click makes one request, the one built by
    [watchAssetRequest], and leaves the handler waiting for the wallet. *)
Lemma addTokenToMetaMask_requests (result : DeploymentResult.t) (env : Env) (w : World) :
  window_ethereum env = true ->
  exists w',
    step result env w ClickAddToMetaMask = Some w'
    /\ effects w' = (effects w ++ [EthereumRequest (watchAssetRequest result)])%list
    /\ pendingRequest w' = S (pendingRequest w)
    /\ ui w' = ui w.
Proof.
  intros Hprov. eexists. split; [reflexivity|].
  unfold exec, addTokenToMetaMask. rewrite Hprov. simpl. repeat split.
Qed.

Lemma watchAssetRequest_method (result : DeploymentResult.t) :
  WatchAsset.method (watchAssetRequest result) = "wallet_watchAsset"
  /\ WatchAsset.address (WatchAsset.opts (WatchAsset.args (watchAssetRequest result)))
     = DeploymentResult.contractAddress result.
Proof. split; reflexivity. Qed.

(** A non-zero number of decimals reaches the wallet as it is. *)
Lemma watchAssetRequest_decimals_nonzero (result : DeploymentResult.t) (d : Z) :
  DeploymentResult.decimals result = Some d -> d <> 0%Z ->
  WatchAsset.decimals (WatchAsset.opts (WatchAsset.args (watchAssetRequest result))) = d.
Proof.
  intros Hd Hnz. simpl. rewrite Hd. unfold js_or, truthy, Truthy_number.
  destruct (Z.eqb_spec d 0); [contradiction | reflexivity].
Qed.

Lemma watchAssetRequest_decimals_undefined (result : DeploymentResult.t) :
  DeploymentResult.decimals result = None ->
  WatchAsset.decimals (WatchAsset.opts (WatchAsset.args (watchAssetRequest result))) = 18%Z.
Proof. intros Hd. simpl. now rewrite Hd. Qed.

Lemma watchAssetRequest_symbol (result : DeploymentResult.t) :
  WatchAsset.symbol (WatchAsset.opts (WatchAsset.args (watchAssetRequest result)))
  = match DeploymentResult.symbol result with
    | Some "" | None => "TOKEN"
    | Some s => s
    end.
Proof.
  simpl. destruct (DeploymentResult.symbol result) as [[|c s]|]; reflexivity.
Qed.

(** C1. For a token deployed with 0 decimals, the request made with a
    provider present is the only one, has method [wallet_watchAsset] and
    the result's address and symbol, but announces 18 decimals: the 0 of
    the result is replaced by the default meant for a missing value. *)
Theorem addTokenToMetaMask_zero_decimals :
  DeploymentResult.decimals zeroDecimalsResult = Some 0%Z
  /\ exists req,
       option_map effects (step zeroDecimalsResult fullEnv initialWorld ClickAddToMetaMask)
       = Some [EthereumRequest req]
       /\ WatchAsset.method req = "wallet_watchAsset"
       /\ WatchAsset.address (WatchAsset.opts (WatchAsset.args req))
          = DeploymentResult.contractAddress zeroDecimalsResult
       /\ WatchAsset.symbol (WatchAsset.opts (WatchAsset.args req)) = "TKT"
       /\ WatchAsset.decimals (WatchAsset.opts (WatchAsset.args req)) = 18%Z.
Proof.
  split; [reflexivity|].
  exists (watchAssetRequest zeroDecimalsResult). repeat split.
Qed.

(** C4. Without an injected provider, a click on "Add to MetaMask" shows
    the alert and nothing else: no request is made or left pending, and the
    component state, the timers and the clock are as before. *)
Theorem addTokenToMetaMask_no_provider
    (result : DeploymentResult.t) (env : Env) (w : World) :
  window_ethereum env = false ->
  exists w',
    step result env w ClickAddToMetaMask = Some w'
    /\ effects w' = (effects w ++ [Alert "MetaMask is not installed"])%list
    /\ ui w' = ui w
    /\ pendingRequest w' = pendingRequest w
    /\ timers w' = timers w
    /\ uncaught w' = uncaught w.
Proof.
  intros Hnone. eexists. split; [reflexivity|].
  unfold exec, addTokenToMetaMask. rewrite Hnone. simpl. repeat split.
Qed.

Lemma addTokenToMetaMask_no_provider_witness :
  exists w',
    step sampleResult bareEnv (mount sampleResult bareEnv) ClickAddToMetaMask = Some w'
    /\ effects w'
       = (effects (mount sampleResult bareEnv) ++ [Alert "MetaMask is not installed"])%list
    /\ ui w' = ui (mount sampleResult bareEnv)
    /\ pendingRequest w' = pendingRequest (mount sampleResult bareEnv)
    /\ timers w' = timers (mount sampleResult bareEnv)
    /\ uncaught w' = uncaught (mount sampleResult bareEnv).
Proof.
  apply (addTokenToMetaMask_no_provider sampleResult bareEnv). reflexivity.
Defined.

(** ** Sharing *)

(** What [copyToClipboard] does to a world. *)
Lemma copyToClipboard_spec (text type : string) (w : World) :
  let w' := exec (copyToClipboard text type) w in
  effects w' = (effects w ++ [ClipboardWriteText text])%list
  /\ copied (ui w') = Some type
  /\ showMetadataForm (ui w') = showMetadataForm (ui w)
  /\ tokenMetadata (ui w') = tokenMetadata (ui w)
  /\ isLoadingMetadata (ui w') = isLoadingMetadata (ui w)
  /\ timers w' = schedule {| due := clock w + 2000; callback := ClearCopied |} (timers w)
  /\ clock w' = clock w
  /\ uncaught w' = uncaught w.
Proof. repeat split. Qed.



(** ** Saving metadata *)

(** C9. A save from the form stores exactly the saved record and hides
    the form, so the card shows that record; the copied flag, the loading
    flag, the timers and the calls made so far are untouched. *)
Theorem handleMetadataSave_shows_record
    (result : DeploymentResult.t) (env : Env) (w : World)
    (metadata : TokenMetadata.t) (initial : option TokenMetadata.t) :
  metadataPanel (ui w) = MetadataForm initial ->
  exists w',
    step result env w (FormSave metadata) = Some w'
    /\ tokenMetadata (ui w') = Some metadata
    /\ showMetadataForm (ui w') = false
    /\ metadataPanel (ui w') = MetadataView metadata
    /\ copied (ui w') = copied (ui w)
    /\ isLoadingMetadata (ui w') = isLoadingMetadata (ui w)
    /\ effects w' = effects w
    /\ timers w' = timers w
    /\ uncaught w' = uncaught w.
Proof.
  intros Hform. unfold step. rewrite Hform.
  eexists. split; [reflexivity|].
  unfold metadataPanel in *.
  destruct (isLoadingMetadata (ui w)) eqn:Hloading; [discriminate|].
  simpl. rewrite Hloading. repeat split.
Qed.

Lemma handleMetadataSave_shows_record_witness :
  exists w',
    step sampleResult bareEnv (exec (setShowMetadataForm true) initialWorld)
      (FormSave sampleMetadata) = Some w'
    /\ tokenMetadata (ui w') = Some sampleMetadata
    /\ showMetadataForm (ui w') = false
    /\ metadataPanel (ui w') = MetadataView sampleMetadata.
Proof.
  destruct (handleMetadataSave_shows_record sampleResult bareEnv
              (exec (setShowMetadataForm true) initialWorld) sampleMetadata None eq_refl)
    as (w' & Hstep & Hmeta & Hform & Hview & _).
  exists w'. repeat split; assumption.
Defined.

(** ** Timers *)

Lemma In_schedule (t x : Timer) (l : list Timer) :
  In x (schedule t l) <-> x = t \/ In x l.
Proof.
  induction l as [|t' l IH]; simpl.
  - intuition.
  - destruct (due t <? due t')%nat; simpl; [intuition|].
    rewrite IH. intuition.
Qed.

(** Firing a batch of timers touches the copied flag only, and clears it
    as soon as the batch is not empty. *)
Lemma fire_spec (l : list Timer) (w : World) :
  let w' := fold_left (fun w0 t => exec (runCallback (callback t)) w0) l w in
  copied (ui w') = match l with [] => copied (ui w) | _ :: _ => None end
  /\ showMetadataForm (ui w') = showMetadataForm (ui w)
  /\ tokenMetadata (ui w') = tokenMetadata (ui w)
  /\ isLoadingMetadata (ui w') = isLoadingMetadata (ui w)
  /\ effects w' = effects w
  /\ timers w' = timers w
  /\ clock w' = clock w
  /\ pendingFetch w' = pendingFetch w
  /\ pendingShare w' = pendingShare w
  /\ pendingRequest w' = pendingRequest w
  /\ uncaught w' = uncaught w.
Proof.
  revert w. induction l as [|[d []] l IH]; intros w; simpl.
  - repeat split.
  - specialize (IH (exec (runCallback ClearCopied) w)). simpl in IH.
    destruct IH as (Hc & IH). split; [|exact IH].
    rewrite Hc. destruct l; reflexivity.
Qed.

Lemma elapse_spec (ms : nat) (w : World) :
  let w' := elapse ms w in
  copied (ui w')
  = match filter (isDue (clock w + ms)) (timers w) with
    | [] => copied (ui w)
    | _ :: _ => None
    end
  /\ showMetadataForm (ui w') = showMetadataForm (ui w)
  /\ tokenMetadata (ui w') = tokenMetadata (ui w)
  /\ isLoadingMetadata (ui w') = isLoadingMetadata (ui w)
  /\ effects w' = effects w
  /\ timers w' = filter (fun t => negb (isDue (clock w + ms) t)) (timers w)
  /\ clock w' = clock w + ms
  /\ pendingFetch w' = pendingFetch w
  /\ pendingShare w' = pendingShare w
  /\ pendingRequest w' = pendingRequest w
  /\ uncaught w' = uncaught w.
Proof.
  unfold elapse.
  exact (fire_spec (filter (isDue (clock w + ms)) (timers w)) _).
Qed.

Ltac elapse_facts ms w :=
  let H := fresh "Hel" in
  pose proof (elapse_spec ms w) as H; cbv zeta in H;
  destruct H as (?Hcopied & ?Hform & ?Hmeta & ?Hload & ?Heff & ?Htimers
                 & ?Hclock & ?Hpf & ?Hps & ?Hpr & ?Hunc).

(** Case analysis on an enabled step: one goal per way an event can run,
    with the world after the step written out. *)
Ltac settle_cases E :=
  unfold settle in E;
  match type of E with
  | context [pendingFetch ?w] =>
      destruct (pendingFetch w) eqn:?Epending; [discriminate E|]
  | context [pendingShare ?w] =>
      destruct (pendingShare w) eqn:?Epending; [discriminate E|]
  | context [pendingRequest ?w] =>
      destruct (pendingRequest w) eqn:?Epending; [discriminate E|]
  end;
  injection E as E; subst.

Ltac step_cases Hstep :=
  match type of Hstep with
  | step ?r ?e ?w ?ev = Some ?w' =>
      destruct ev as [| | | | | |saved|[[fetched|]|err]|[[]|err]|[[]|err]|ms];
      cbn [step] in Hstep;
      try match type of Hstep with
        | context [metadataToggleLabel ?s] =>
            let E := fresh "Elabel" in
            destruct (metadataToggleLabel s) eqn:E; [|discriminate Hstep]
        | context [metadataPanel ?s] =>
            let E := fresh "Epanel" in
            destruct (metadataPanel s) eqn:E; try discriminate Hstep
        | context [settle ?a ?x] =>
            let E := fresh "Esettle" in
            destruct (settle a x) eqn:E; [settle_cases E|discriminate Hstep]
        end;
      cbn [option_map] in Hstep;
      injection Hstep as Hstep; subst w';
      try match goal with
        | |- context [shareContract] =>
            unfold shareContract; destruct (navigator_share e) eqn:?Eshare
        | |- context [addTokenToMetaMask] =>
            unfold addTokenToMetaMask; destruct (window_ethereum e) eqn:?Eprovider
        end
  end.





Lemma run_cons r e w ev evs w2 :
  run r e w (ev :: evs) = Some w2 ->
  exists w1, step r e w ev = Some w1 /\ run r e w1 evs = Some w2.
Proof.
  cbn [run]. destruct (step r e w ev) as [w1|]; [|discriminate].
  intros Hrun. exists w1. split; [reflexivity | exact Hrun].
Qed.



(** ** The copied flag *)




(** ** Phases of the metadata card are stable *)

Ltac phase_facts :=
  unfold awaitingMetadata, emptyMetadata, neverFetched,
    metadataToggleLabel, metadataPanel in *;
  cbn in *.

Lemma run_invariant r e (P : World -> Prop) (allowed : Event -> bool) :
  (forall w ev w', P w -> allowed ev = true -> step r e w ev = Some w' -> P w') ->
  forall evs w w',
    P w ->
    forallb allowed evs = true ->
    run r e w evs = Some w' ->
    P w'.
Proof.
  intros Hstep. induction evs as [|ev evs IH]; intros w w' HP Hall Hrun.
  - injection Hrun as <-. exact HP.
  - apply run_cons in Hrun. destruct Hrun as (w1 & Hs & Hrun).
    cbn [forallb] in Hall. apply andb_prop in Hall. destruct Hall as (Hev & Hall).
    apply (IH w1 w'); [|exact Hall|exact Hrun].
    apply (Hstep w ev w1); assumption.
Qed.

(** While the lookup is awaited the card shows the spinner, so neither
    button that opens the form can be clicked, and nothing is saved. *)
Lemma step_awaitingMetadata r e w ev w' :
  awaitingMetadata w ->
  negb (isFetchSettled ev) = true ->
  step r e w ev = Some w' ->
  awaitingMetadata w'.
Proof.
  intros (Hload & Hform & Hmeta & Hpending & Hunc) Hev Hstep.
  step_cases Hstep; try discriminate Hev.
  all: phase_facts.
  all: try (rewrite Hload in *; discriminate).
  all: try (repeat split; assumption).
  elapse_facts ms w. repeat split; congruence.
Qed.

(** Without a record, the prompt stays until a button that opens the form
    is clicked. *)
Lemma step_emptyMetadata r e w ev w' :
  emptyMetadata w ->
  negb (opensForm ev) = true ->
  step r e w ev = Some w' ->
  emptyMetadata w'.
Proof.
  intros (Hload & Hform & Hmeta & Hpending) Hev Hstep.
  step_cases Hstep; try discriminate Hev.
  all: phase_facts.
  all: try (rewrite Hload, Hform, ?Hmeta in *; discriminate).
  all: try (repeat split; assumption).
  all: try congruence.
  elapse_facts ms w. repeat split; congruence.
Qed.

Lemma step_neverFetched r e w ev w' :
  neverFetched w ->
  step r e w ev = Some w' ->
  neverFetched w'.
Proof.
  intros (Hload & Hpending & Heff) Hstep.
  step_cases Hstep.
  all: phase_facts.
  all: repeat rewrite forallb_app; cbn; rewrite ?Heff.
  all: try (repeat split; assumption).
  all: try congruence.
  elapse_facts ms w. repeat split; congruence.
Qed.

Lemma mount_awaitingMetadata (result : DeploymentResult.t) (env : Env) :
  truthy (DeploymentResult.contractAddress result) = true ->
  getTokenMetadata_call env (DeploymentResult.contractAddress result) = ReturnsPromise ->
  awaitingMetadata (mount result env)
  /\ effects (mount result env)
     = [GetTokenMetadata (DeploymentResult.contractAddress result)].
Proof.
  intros Haddr Hcall. unfold mount, exec, checkMetadata.
  rewrite Haddr. cbn. rewrite Hcall. cbn. repeat split.
Qed.

Lemma awaitingMetadata_reached r e evs w :
  truthy (DeploymentResult.contractAddress r) = true ->
  getTokenMetadata_call e (DeploymentResult.contractAddress r) = ReturnsPromise ->
  run r e (mount r e) evs = Some w ->
  forallb (fun ev => negb (isFetchSettled ev)) evs = true ->
  awaitingMetadata w.
Proof.
  intros Haddr Hcall Hrun Hevs.
  apply (run_invariant r e awaitingMetadata (fun ev => negb (isFetchSettled ev)))
    with (evs := evs) (w := mount r e); try assumption.
  - intros w0 ev w1 HP Hev Hstep. exact (step_awaitingMetadata r e w0 ev w1 HP Hev Hstep).
  - apply mount_awaitingMetadata; assumption.
Qed.

(** ** The metadata card after mount *)

(** C6. The lookup started at mount resolves to a record: whatever was
    clicked while it was awaited, the card then shows that record in the
    read view, the form is not shown and the spinner is gone. *)
Theorem metadata_found_shows_view
    (result : DeploymentResult.t) (env : Env)
    (evs : list Event) (w : World) (metadata : TokenMetadata.t) :
  truthy (DeploymentResult.contractAddress result) = true ->
  getTokenMetadata_call env (DeploymentResult.contractAddress result) = ReturnsPromise ->
  run result env (mount result env) evs = Some w ->
  forallb (fun ev => negb (isFetchSettled ev)) evs = true ->
  exists w',
    step result env w (FetchSettled (Resolved (Some metadata))) = Some w'
    /\ metadataPanel (ui w') = MetadataView metadata
    /\ tokenMetadata (ui w') = Some metadata
    /\ showMetadataForm (ui w') = false
    /\ isLoadingMetadata (ui w') = false
    /\ effects w' = effects w
    /\ uncaught w' = [].
Proof.
  intros Haddr Hcall Hrun Hevs.
  destruct (awaitingMetadata_reached result env evs w Haddr Hcall Hrun Hevs)
    as (Hload & Hform & Hmeta & Hpending & Hunc).
  cbn [step]. unfold settle. rewrite Hpending. cbn [option_map].
  eexists. split; [reflexivity|]. cbn. repeat split. exact Hunc.
Qed.

Lemma metadata_found_shows_view_witness :
  exists w w',
    run sampleResult fullEnv (mount sampleResult fullEnv)
      [ClickCopyAddress; ClickShare; Elapse 300] = Some w
    /\ step sampleResult fullEnv w (FetchSettled (Resolved (Some sampleMetadata))) = Some w'
    /\ metadataPanel (ui w') = MetadataView sampleMetadata.
Proof.
  eexists.
  destruct (metadata_found_shows_view sampleResult fullEnv
              [ClickCopyAddress; ClickShare; Elapse 300] _ sampleMetadata
              eq_refl eq_refl eq_refl eq_refl)
    as (w' & Hstep & Hview & _).
  exists w'. split; [reflexivity|]. split; assumption.
Defined.

(** C7. The lookup started at mount resolves to no record: the card shows
    the prompt to add metadata, with no record and the form hidden, and
    keeps showing it through every later event that is not a click on one
    of the two buttons opening the form; such a click opens the form. *)
Theorem metadata_absent_shows_prompt
    (result : DeploymentResult.t) (env : Env) (evs : list Event) (w : World) :
  truthy (DeploymentResult.contractAddress result) = true ->
  getTokenMetadata_call env (DeploymentResult.contractAddress result) = ReturnsPromise ->
  run result env (mount result env) evs = Some w ->
  forallb (fun ev => negb (isFetchSettled ev)) evs = true ->
  exists w',
    step result env w (FetchSettled (Resolved None)) = Some w'
    /\ metadataPanel (ui w') = AddMetadataPrompt
    /\ tokenMetadata (ui w') = None
    /\ showMetadataForm (ui w') = false
    /\ (forall later w'',
          run result env w' later = Some w'' ->
          forallb (fun ev => negb (opensForm ev)) later = true ->
          metadataPanel (ui w'') = AddMetadataPrompt
          /\ tokenMetadata (ui w'') = None
          /\ showMetadataForm (ui w'') = false)
    /\ (exists w'',
          step result env w' ClickAddTokenMetadata = Some w''
          /\ metadataPanel (ui w'') = MetadataForm None).
Proof.
  intros Haddr Hcall Hrun Hevs.
  destruct (awaitingMetadata_reached result env evs w Haddr Hcall Hrun Hevs)
    as (Hload & Hform & Hmeta & Hpending & Hunc).
  cbn [step]. unfold settle. rewrite Hpending. cbn [option_map].
  eexists. split; [reflexivity|].
  match goal with |- context [metadataPanel (ui ?x)] => set (w' := x) end.
  assert (Hempty : emptyMetadata w').
  { subst w'. unfold emptyMetadata. cbn. repeat split; assumption. }
  clearbody w'.
  assert (Hprompt : forall x, emptyMetadata x ->
            metadataPanel (ui x) = AddMetadataPrompt
            /\ tokenMetadata (ui x) = None /\ showMetadataForm (ui x) = false).
  { intros x (Hl & Hf & Hm & _). unfold metadataPanel. rewrite Hl, Hf, Hm.
    repeat split. }
  destruct (Hprompt w' Hempty) as (Hp & Hm & Hf).
  split; [exact Hp|]. split; [exact Hm|]. split; [exact Hf|]. split.
  - intros later w'' Hlater Hquiet. apply Hprompt.
    apply (run_invariant result env emptyMetadata (fun ev => negb (opensForm ev)))
      with (evs := later) (w := w'); try assumption.
    intros w0 ev w1 HP Hev Hstep. exact (step_emptyMetadata result env w0 ev w1 HP Hev Hstep).
  - cbn [step]. rewrite Hp. eexists. split; [reflexivity|].
    destruct Hempty as (Hl & _). unfold metadataPanel. cbn.
    rewrite Hl, Hm. reflexivity.
Qed.

Lemma metadata_absent_shows_prompt_witness :
  exists w w' w'',
    run sampleResult bareEnv (mount sampleResult bareEnv) [ClickCopyTx; Elapse 150] = Some w
    /\ step sampleResult bareEnv w (FetchSettled (Resolved None)) = Some w'
    /\ run sampleResult bareEnv w' [ClickShare; Elapse 2500; ClickAddToMetaMask] = Some w''
    /\ metadataPanel (ui w') = AddMetadataPrompt
    /\ metadataPanel (ui w'') = AddMetadataPrompt.
Proof.
  eexists.
  destruct (metadata_absent_shows_prompt sampleResult bareEnv
              [ClickCopyTx; Elapse 150] _ eq_refl eq_refl eq_refl eq_refl)
    as (w' & Hstep & Hprompt & _ & _ & Hlater & _).
  exists w'.
  destruct (run sampleResult bareEnv w' [ClickShare; Elapse 2500; ClickAddToMetaMask])
    as [w''|] eqn:Hrun.
  - exists w''. split; [reflexivity|]. split; [exact Hstep|]. split; [reflexivity|].
    split; [exact Hprompt|]. apply (Hlater _ w'' Hrun). reflexivity.
  - exfalso. cbn [step option_map settle mount] in Hstep.
    injection Hstep as <-. discriminate Hrun.
Defined.

(** C8. The lookup started at mount fails, by a rejected promise or by
    throwing at the call: the error is logged with [console.error], no
    record is stored, the form stays hidden, the loading flag is cleared so
    the card shows the prompt, and the handler completes normally: nothing
    is left uncaught. *)
Theorem metadata_fetch_failure_is_contained
    (result : DeploymentResult.t) (env : Env) (err : JsError) :
  truthy (DeploymentResult.contractAddress result) = true ->
  (getTokenMetadata_call env (DeploymentResult.contractAddress result) = ReturnsPromise ->
   forall evs w,
     run result env (mount result env) evs = Some w ->
     forallb (fun ev => negb (isFetchSettled ev)) evs = true ->
     exists w',
       step result env w (FetchSettled (Rejected err)) = Some w'
       /\ effects w'
          = (effects w ++ [ConsoleError "Error fetching token metadata:" err])%list
       /\ tokenMetadata (ui w') = None
       /\ showMetadataForm (ui w') = false
       /\ isLoadingMetadata (ui w') = false
       /\ metadataPanel (ui w') = AddMetadataPrompt
       /\ uncaught w' = []
       /\ fst (checkMetadata_resume (Rejected err) w) = Normal tt)
  /\ (getTokenMetadata_call env (DeploymentResult.contractAddress result) = ThrowsSync err ->
      effects (mount result env)
      = [GetTokenMetadata (DeploymentResult.contractAddress result);
         ConsoleError "Error fetching token metadata:" err]
      /\ ui (mount result env) = initialState
      /\ metadataPanel (ui (mount result env)) = AddMetadataPrompt
      /\ pendingFetch (mount result env) = 0
      /\ uncaught (mount result env) = []
      /\ fst (checkMetadata result env initialWorld) = Normal tt).
Proof.
  intros Haddr. split.
  - intros Hcall evs w Hrun Hevs.
    destruct (awaitingMetadata_reached result env evs w Haddr Hcall Hrun Hevs)
      as (Hload & Hform & Hmeta & Hpending & Hunc).
    cbn [step]. unfold settle. rewrite Hpending. cbn [option_map].
    eexists. split; [reflexivity|]. unfold metadataPanel. cbn.
    rewrite Hform, Hmeta. repeat split. exact Hunc.
  - intros Hcall. unfold mount, exec, checkMetadata.
    rewrite Haddr. cbn. rewrite Hcall. cbn. repeat split.
Qed.

Lemma metadata_fetch_failure_is_contained_witness :
  (exists w',
     step sampleResult fullEnv (mount sampleResult fullEnv)
       (FetchSettled (Rejected "503")) = Some w'
     /\ metadataPanel (ui w') = AddMetadataPrompt
     /\ uncaught w' = [])
  /\ metadataPanel (ui (mount sampleResult brokenServiceEnv)) = AddMetadataPrompt.
Proof.
  split.
  - destruct (proj1 (metadata_fetch_failure_is_contained sampleResult fullEnv "503" eq_refl)
                eq_refl [] (mount sampleResult fullEnv) eq_refl eq_refl)
      as (w' & Hstep & _ & _ & _ & _ & Hprompt & Hunc & _).
    exists w'. repeat split; assumption.
  - apply (proj2 (metadata_fetch_failure_is_contained sampleResult brokenServiceEnv
                    "network down" eq_refl) eq_refl).
Defined.

(** C10. With a falsy contract address the mount effect does nothing: no
    lookup is made then or later, the loading flag is false in every world
    reached from the mount, and the card shows the prompt from the start. *)
Theorem no_address_no_fetch (result : DeploymentResult.t) (env : Env) :
  truthy (DeploymentResult.contractAddress result) = false ->
  mount result env = initialWorld
  /\ metadataPanel (ui (mount result env)) = AddMetadataPrompt
  /\ forall evs w,
       run result env (mount result env) evs = Some w ->
       isLoadingMetadata (ui w) = false
       /\ pendingFetch w = 0
       /\ forall address, ~ In (GetTokenMetadata address) (effects w).
Proof.
  intros Haddr.
  assert (Hmount : mount result env = initialWorld).
  { unfold mount, exec, checkMetadata. rewrite Haddr. reflexivity. }
  rewrite Hmount. split; [reflexivity|]. split; [reflexivity|].
  intros evs w Hrun.
  assert (Hnever : neverFetched w).
  { apply (run_invariant result env neverFetched (fun _ => true))
      with (evs := evs) (w := initialWorld).
    - intros w0 ev w1 HP _ Hstep. exact (step_neverFetched result env w0 ev w1 HP Hstep).
    - repeat split.
    - clear. induction evs; [reflexivity | assumption].
    - exact Hrun. }
  destruct Hnever as (Hload & Hpending & Heff).
  split; [exact Hload|]. split; [exact Hpending|].
  intros address Hin.
  rewrite forallb_forall in Heff. specialize (Heff _ Hin). discriminate Heff.
Qed.

Lemma no_address_no_fetch_witness :
  mount noAddressResult fullEnv = initialWorld
  /\ metadataPanel (ui (mount noAddressResult fullEnv)) = AddMetadataPrompt
  /\ forall evs w,
       run noAddressResult fullEnv (mount noAddressResult fullEnv) evs = Some w ->
       isLoadingMetadata (ui w) = false
       /\ pendingFetch w = 0
       /\ forall address, ~ In (GetTokenMetadata address) (effects w).
Proof.
  apply (no_address_no_fetch noAddressResult fullEnv). reflexivity.
Defined.

(** ** Sessions: what holds after any sequence of events *)




(** X2. When the wallet rejects the request the error is logged and
    nothing else happens; when it accepts, nothing happens at all.  Either
    way the component state, the timers and the clipboard are untouched. *)
Theorem addTokenToMetaMask_settles_quietly
    (result : DeploymentResult.t) (env : Env) (w : World) (p : Outcome unit) :
  0 < pendingRequest w ->
  exists w',
    step result env w (RequestSettled p) = Some w'
    /\ effects w'
       = (effects w
            ++ match p with
               | Resolved _ => []
               | Rejected err => [ConsoleError "Error adding token to MetaMask:" err]
               end)%list
    /\ ui w' = ui w
    /\ timers w' = timers w
    /\ S (pendingRequest w') = pendingRequest w
    /\ uncaught w' = uncaught w.
Proof.
  intros Hpending. cbn [step]. unfold settle.
  destruct (pendingRequest w) as [|n]; [lia|]. cbn [option_map].
  eexists. split; [reflexivity|].
  destruct p as [[]|err]; cbn; rewrite ?app_nil_r; repeat split.
Qed.

Lemma addTokenToMetaMask_settles_quietly_witness :
  exists w1 w2,
    step sampleResult fullEnv (mount sampleResult fullEnv) ClickAddToMetaMask = Some w1
    /\ step sampleResult fullEnv w1 (RequestSettled (Rejected "4001")) = Some w2
    /\ ui w2 = ui w1.
Proof.
  eexists.
  destruct (addTokenToMetaMask_settles_quietly sampleResult fullEnv
              (exec (addTokenToMetaMask sampleResult fullEnv) (mount sampleResult fullEnv))
              (Rejected "4001"))
    as (w2 & Hstep & _ & Hui & _).
  - cbn. lia.
  - exists w2. split; [vm_compute; reflexivity|]. split; assumption.
Defined.

(** A step only adds calls of the expected kinds. *)
Lemma step_expectedEffect r e w ev w' :
  Forall (expectedEffect r) (effects w) ->
  step r e w ev = Some w' ->
  Forall (expectedEffect r) (effects w').
Proof.
  intros Hall Hstep. step_cases Hstep.
  all: cbn.
  all: try exact Hall.
  all: try (elapse_facts ms w; rewrite Heff; exact Hall).
  all: repeat (apply Forall_app; split;
               [|apply Forall_cons; [cbn; auto | apply Forall_nil]]).
  all: exact Hall.
Qed.

Lemma mount_expectedEffect (result : DeploymentResult.t) (env : Env) :
  Forall (expectedEffect result) (effects (mount result env)).
Proof.
  unfold mount, exec, checkMetadata.
  destruct (truthy (DeploymentResult.contractAddress result)); [|constructor].
  cbn. destruct (getTokenMetadata_call env _); cbn.
  all: repeat (apply Forall_cons; [cbn; auto|]); apply Forall_nil.
Qed.

(** X3. In every session the only texts put on the clipboard are the
    contract address, the transaction hash and the explorer URL of the
    result; every wallet request is the [wallet_watchAsset] request built
    from the result, every share carries the result's share data, and the
    only address looked up is the result's contract address. *)
Theorem session_effects_come_from_result
    (result : DeploymentResult.t) (env : Env) (evs : list Event) (w : World) :
  run result env (mount result env) evs = Some w ->
  forall e, In e (effects w) -> expectedEffect result e.
Proof.
  intros Hrun. apply Forall_forall.
  apply (run_invariant result env
           (fun x => Forall (expectedEffect result) (effects x)) (fun _ => true))
    with (evs := evs) (w := mount result env).
  - intros w0 ev w1 HP _ Hstep. exact (step_expectedEffect result env w0 ev w1 HP Hstep).
  - apply mount_expectedEffect.
  - clear. induction evs; [reflexivity | assumption].
  - exact Hrun.
Qed.

Lemma session_effects_come_from_result_witness :
  exists w,
    run sampleResult bareEnv (mount sampleResult bareEnv)
      [ClickCopyTx; ClickShare; ClickAddToMetaMask] = Some w
    /\ forall e, In e (effects w) -> expectedEffect sampleResult e.
Proof.
  eexists. split; [vm_compute; reflexivity|].
  apply (session_effects_come_from_result sampleResult bareEnv
           [ClickCopyTx; ClickShare; ClickAddToMetaMask]).
  vm_compute; reflexivity.
Defined.

(** ** The wallet over a session *)

Lemma step_wallet_effects r e w ev w' :
  step r e w ev = Some w' ->
  filter isEthereumRequest (effects w')
  = (filter isEthereumRequest (effects w)
       ++ if isClickAddToMetaMask ev && window_ethereum e
          then [EthereumRequest (watchAssetRequest r)] else [])%list
  /\ filter isAlert (effects w')
     = (filter isAlert (effects w)
          ++ if isClickAddToMetaMask ev && negb (window_ethereum e)
             then [Alert "MetaMask is not installed"] else [])%list.
Proof.
  intros Hstep. step_cases Hstep.
  all: cbn; rewrite ?Eprovider; cbn.
  all: rewrite ?filter_app; cbn; rewrite ?app_nil_r.
  all: try (split; reflexivity).
  elapse_facts ms w. rewrite Heff, ?app_nil_r. split; reflexivity.
Qed.

Lemma mount_wallet_effects (result : DeploymentResult.t) (env : Env) :
  filter isEthereumRequest (effects (mount result env)) = []
  /\ filter isAlert (effects (mount result env)) = [].
Proof.
  unfold mount, exec, checkMetadata.
  destruct (truthy (DeploymentResult.contractAddress result)); [|split; reflexivity].
  cbn. destruct (getTokenMetadata_call env _); split; reflexivity.
Qed.

Lemma run_wallet_effects r e (evs : list Event) :
  forall w w',
    run r e w evs = Some w' ->
    List.length (filter isEthereumRequest (effects w'))
    = List.length (filter isEthereumRequest (effects w))
      + (if window_ethereum e then List.length (filter isClickAddToMetaMask evs) else 0)
    /\ List.length (filter isAlert (effects w'))
       = List.length (filter isAlert (effects w))
         + (if window_ethereum e then 0 else List.length (filter isClickAddToMetaMask evs)).
Proof.
  induction evs as [|ev evs IH]; intros w w' Hrun.
  - injection Hrun as <-. cbn. destruct (window_ethereum e); lia.
  - apply run_cons in Hrun. destruct Hrun as (w1 & Hstep & Hrun).
    destruct (IH w1 w' Hrun) as (Hreq & Halert).
    destruct (step_wallet_effects r e w ev w1 Hstep) as (Hreq1 & Halert1).
    rewrite Hreq, Halert, Hreq1, Halert1, !length_app. cbn [filter].
    destruct (isClickAddToMetaMask ev), (window_ethereum e); cbn; lia.
Qed.

(** X4. Over a whole session the wallet is asked once per click on
    "Add to MetaMask" when a provider is injected, with no alert ever
    shown; without a provider every click shows the alert and no request
    is ever made.  Clicks are not merged, debounced or retried. *)
Theorem wallet_requests_follow_clicks
    (result : DeploymentResult.t) (env : Env) (evs : list Event) (w : World) :
  run result env (mount result env) evs = Some w ->
  let clicks := List.length (filter isClickAddToMetaMask evs) in
  List.length (filter isEthereumRequest (effects w))
  = (if window_ethereum env then clicks else 0)
  /\ List.length (filter isAlert (effects w))
     = (if window_ethereum env then 0 else clicks).
Proof.
  intros Hrun clicks.
  destruct (run_wallet_effects result env evs _ w Hrun) as (Hreq & Halert).
  destruct (mount_wallet_effects result env) as (Hreq0 & Halert0).
  rewrite Hreq0 in Hreq. rewrite Halert0 in Halert. cbn in Hreq, Halert.
  split; assumption.
Qed.

Lemma wallet_requests_follow_clicks_witness :
  exists w,
    run sampleResult fullEnv (mount sampleResult fullEnv)
      [ClickAddToMetaMask; Elapse 40; ClickAddToMetaMask;
       RequestSettled (Rejected "4001")] = Some w
    /\ List.length (filter isEthereumRequest (effects w)) = 2
    /\ List.length (filter isAlert (effects w)) = 0.
Proof.
  eexists. split; [vm_compute; reflexivity|].
  apply (wallet_requests_follow_clicks sampleResult fullEnv
           [ClickAddToMetaMask; Elapse 40; ClickAddToMetaMask;
            RequestSettled (Rejected "4001")]).
  vm_compute; reflexivity.
Defined.

(** ** The copied flag over a session *)

Lemma step_knownCopiedKey r e w ev w' :
  knownCopiedKey (ui w) ->
  step r e w ev = Some w' ->
  knownCopiedKey (ui w').
Proof.
  intros Hkey Hstep. unfold knownCopiedKey in *. step_cases Hstep.
  all: cbn.
  all: try exact Hkey.
  all: try (right; left; reflexivity).
  all: try (right; right; left; reflexivity).
  all: try (right; right; right; reflexivity).
  elapse_facts ms w. rewrite Hcopied.
  destruct (filter (isDue (clock w + ms)) (timers w)); [exact Hkey | left; reflexivity].
Qed.

Lemma mount_ui_copied (result : DeploymentResult.t) (env : Env) :
  copied (ui (mount result env)) = None
  /\ timers (mount result env) = []
  /\ clock (mount result env) = 0.
Proof.
  unfold mount, exec, checkMetadata.
  destruct (truthy (DeploymentResult.contractAddress result)); [|repeat split].
  cbn. destruct (getTokenMetadata_call env _); repeat split.
Qed.

(** X5. The copied indicator only ever holds one of the three keys the
    component passes to [copyToClipboard], or nothing. *)
Theorem copied_holds_known_key
    (result : DeploymentResult.t) (env : Env) (evs : list Event) (w : World) :
  run result env (mount result env) evs = Some w ->
  knownCopiedKey (ui w).
Proof.
  intros Hrun.
  apply (run_invariant result env (fun x => knownCopiedKey (ui x)) (fun _ => true))
    with (evs := evs) (w := mount result env).
  - intros w0 ev w1 HP _ Hstep. exact (step_knownCopiedKey result env w0 ev w1 HP Hstep).
  - left. apply mount_ui_copied.
  - clear. induction evs; [reflexivity | assumption].
  - exact Hrun.
Qed.

Lemma copied_holds_known_key_witness :
  exists w,
    run sampleResult bareEnv (mount sampleResult bareEnv)
      [ClickCopyAddress; Elapse 900; ClickShare] = Some w
    /\ knownCopiedKey (ui w).
Proof.
  eexists. split; [vm_compute; reflexivity|].
  apply (copied_holds_known_key sampleResult bareEnv
           [ClickCopyAddress; Elapse 900; ClickShare]).
  vm_compute; reflexivity.
Defined.

Lemma filter_none_due {A} (p : A -> bool) (l : list A) :
  filter p l = [] -> filter (fun x => negb (p x)) l = l.
Proof.
  induction l as [|x l IH]; cbn; [reflexivity|].
  destruct (p x); [discriminate|]. cbn. intros H. now rewrite IH.
Qed.

Lemma step_timersWithinDelay r e w ev w' :
  timersWithinDelay w ->
  step r e w ev = Some w' ->
  timersWithinDelay w'.
Proof.
  intros (Hdue & Hflag) Hstep. unfold timersWithinDelay. step_cases Hstep.
  all: cbn.
  all: try (split; assumption).
  all: try (split;
            [ intros t Hin; apply In_schedule in Hin; destruct Hin as [->|Hin];
              [cbn; lia | exact (Hdue t Hin)]
            | intros _ Hnil;
              assert (Hin : In {| due := clock w + 2000; callback := ClearCopied |}
                              (schedule {| due := clock w + 2000; callback := ClearCopied |}
                                 (timers w)))
                by (apply In_schedule; left; reflexivity);
              rewrite Hnil in Hin; destruct Hin ]).
  elapse_facts ms w. rewrite Hcopied, Htimers, Hclock. split.
  - intros t Hin. apply filter_In in Hin. destruct Hin as (Hin & Hlate).
    unfold isDue in Hlate. apply negb_true_iff, Nat.leb_gt in Hlate.
    destruct (Hdue t Hin). lia.
  - destruct (filter (isDue (clock w + ms)) (timers w)) eqn:Hfired.
    + rewrite (filter_none_due _ _ Hfired). exact Hflag.
    + intros Habs. now contradiction Habs.
Qed.

Lemma timersWithinDelay_reached r e evs w :
  run r e (mount r e) evs = Some w ->
  timersWithinDelay w.
Proof.
  intros Hrun.
  apply (run_invariant r e timersWithinDelay (fun _ => true))
    with (evs := evs) (w := mount r e).
  - intros w0 ev w1 HP _ Hstep. exact (step_timersWithinDelay r e w0 ev w1 HP Hstep).
  - destruct (mount_ui_copied r e) as (Hc & Ht & _). split.
    + rewrite Ht. intros t [].
    + rewrite Hc. intros Habs. now contradiction Habs.
  - clear. induction evs; [reflexivity | assumption].
  - exact Hrun.
Qed.

(** X6. A flag never hangs: whenever the copied indicator is set, a timer
    that will clear it is armed and due within the next 2000ms; and after
    2000ms or more without any other event the indicator is empty and no
    timer is left. *)
Theorem copied_flag_never_hangs
    (result : DeploymentResult.t) (env : Env) (evs : list Event) (w : World) :
  run result env (mount result env) evs = Some w ->
  (copied (ui w) <> None ->
   exists t, In t (timers w) /\ clock w < due t /\ due t <= clock w + 2000)
  /\ (forall ms, 2000 <= ms ->
      exists w',
        step result env w (Elapse ms) = Some w'
        /\ copied (ui w') = None
        /\ timers w' = []).
Proof.
  intros Hrun.
  destruct (timersWithinDelay_reached result env evs w Hrun) as (Hdue & Hflag).
  split.
  - intros Hset. specialize (Hflag Hset).
    destruct (timers w) as [|t l] eqn:Htimers; [now contradiction Hflag|].
    exists t. split; [left; reflexivity|]. apply Hdue. left. reflexivity.
  - intros ms Hms. exists (elapse ms w). split; [reflexivity|].
    elapse_facts ms w. rewrite Hcopied, Htimers.
    assert (Hall : forall t, In t (timers w) -> isDue (clock w + ms) t = true).
    { intros t Hin. unfold isDue. apply Nat.leb_le. destruct (Hdue t Hin). lia. }
    split.
    + destruct (filter (isDue (clock w + ms)) (timers w)) eqn:Hfired; [|reflexivity].
      destruct (timers w) as [|t l] eqn:Hl.
      * destruct (copied (ui w)) eqn:Hc; [|reflexivity].
        exfalso. apply Hflag; [discriminate | reflexivity].
      * cbn in Hfired. rewrite (Hall t (or_introl eq_refl)) in Hfired. discriminate.
    + clear - Hall. induction (timers w) as [|t l IH]; [reflexivity|].
      cbn. rewrite (Hall t (or_introl eq_refl)). cbn.
      apply IH. intros t' Hin. apply Hall. right. exact Hin.
Qed.

Lemma copied_flag_never_hangs_witness :
  exists w w',
    run sampleResult bareEnv (mount sampleResult bareEnv)
      [ClickCopyAddress; Elapse 1500; ClickCopyTx; Elapse 700] = Some w
    /\ copied (ui w) = None
    /\ timers w <> []
    /\ step sampleResult bareEnv w (Elapse 2000) = Some w'
    /\ timers w' = [].
Proof.
  eexists.
  destruct (proj2 (copied_flag_never_hangs sampleResult bareEnv
                     [ClickCopyAddress; Elapse 1500; ClickCopyTx; Elapse 700] _ eq_refl)
              2000 (le_n 2000))
    as (w' & Hstep & _ & Hnone).
  exists w'. split; [vm_compute; reflexivity|]. split; [vm_compute; reflexivity|].
  split; [discriminate|]. split; assumption.
Defined.

(** ** Sharing through the share sheet *)

(** X7. Where [navigator.share] exists and the share goes through, the
    clipboard is not written, no flag is set and no timer is armed: the
    only trace of the click is the call to [navigator.share] with the
    explorer URL of the result. *)
Theorem shareContract_success_is_silent
    (result : DeploymentResult.t) (env : Env) (w : World) :
  navigator_share env = true ->
  exists w',
    run result env w [ClickShare; ShareSettled (Resolved tt)] = Some w'
    /\ effects w' = (effects w ++ [NavigatorShare (shareData result)])%list
    /\ ShareData.url (shareData result) = DeploymentResult.explorerUrl result
    /\ ui w' = ui w
    /\ timers w' = timers w
    /\ pendingShare w' = pendingShare w
    /\ uncaught w' = uncaught w.
Proof.
  intros Hshare. cbn [run step]. unfold exec at 2, shareContract.
  rewrite Hshare. cbn. eexists. split; [reflexivity|]. repeat split.
Qed.

Lemma shareContract_success_is_silent_witness :
  exists w',
    run sampleResult fullEnv (mount sampleResult fullEnv)
      [ClickShare; ShareSettled (Resolved tt)] = Some w'
    /\ ui w' = ui (mount sampleResult fullEnv)
    /\ timers w' = timers (mount sampleResult fullEnv).
Proof.
  destruct (shareContract_success_is_silent sampleResult fullEnv
              (mount sampleResult fullEnv) eq_refl)
    as (w' & Hrun & _ & _ & Hui & Htimers & _).
  exists w'. repeat split; assumption.
Defined.

(** ** The metadata card *)

(** X8. The header button and the body of the card agree: there is no
    button while the spinner shows, "Hide Form" goes with the form,
    "Edit Metadata" with the read view and "Add Metadata" with the prompt;
    and the form is handed the record on display as its initial value. *)
Theorem toggle_label_matches_panel (s : State) :
  match metadataPanel s with
  | Spinner => metadataToggleLabel s = None
  | MetadataForm initial =>
      metadataToggleLabel s = Some "Hide Form" /\ initial = tokenMetadata s
  | MetadataView m =>
      metadataToggleLabel s = Some "Edit Metadata" /\ tokenMetadata s = Some m
  | AddMetadataPrompt =>
      metadataToggleLabel s = Some "Add Metadata" /\ tokenMetadata s = None
  end.
Proof.
  unfold metadataPanel, metadataToggleLabel.
  destruct (isLoadingMetadata s); cbn; [reflexivity|].
  destruct (showMetadataForm s); cbn.
  - split; [reflexivity|]. destruct (tokenMetadata s); reflexivity.
  - destruct (tokenMetadata s); split; reflexivity.
Qed.

(** X9. Once the lookup is over, two clicks on the header button cancel
    out: the world is the one before the clicks.  From the read view the
    first click opens the form filled with the record shown, and the
    second comes back to that record. *)
Theorem toggle_twice_restores
    (result : DeploymentResult.t) (env : Env) (w : World) :
  isLoadingMetadata (ui w) = false ->
  run result env w [ClickToggleForm; ClickToggleForm] = Some w
  /\ forall m,
       metadataPanel (ui w) = MetadataView m ->
       exists w1,
         step result env w ClickToggleForm = Some w1
         /\ metadataPanel (ui w1) = MetadataForm (Some m)
         /\ step result env w1 ClickToggleForm = Some w.
Proof.
  intros Hload.
  destruct w as [[c f m l] eff tm ck pf ps pr un]. cbn in Hload. subst l.
  split.
  - cbn. rewrite negb_involutive. reflexivity.
  - intros m0. unfold metadataPanel. cbn.
    destruct f; [discriminate|]. destruct m as [m|]; [|discriminate].
    intros [= ->]. eexists. split; [reflexivity|]. split; reflexivity.
Qed.

Lemma toggle_twice_restores_witness :
  exists w,
    step sampleResult bareEnv (mount sampleResult bareEnv)
      (FetchSettled (Resolved (Some sampleMetadata))) = Some w
    /\ run sampleResult bareEnv w [ClickToggleForm; ClickToggleForm] = Some w.
Proof.
  eexists. split; [vm_compute; reflexivity|].
  apply (toggle_twice_restores sampleResult bareEnv). reflexivity.
Defined.

Lemma step_keeps_record r e w ev w' :
  pendingFetch w = 0 ->
  step r e w ev = Some w' ->
  pendingFetch w' = 0
  /\ (isLoadingMetadata (ui w) = false -> isLoadingMetadata (ui w') = false)
  /\ filter isGetTokenMetadata (effects w') = filter isGetTokenMetadata (effects w)
  /\ tokenMetadata (ui w')
     = match ev with
       | FormSave saved => Some saved
       | _ => tokenMetadata (ui w)
       end.
Proof.
  intros Hpending Hstep. step_cases Hstep.
  all: try congruence.
  all: cbn; rewrite ?filter_app; cbn; rewrite ?app_nil_r.
  all: try (repeat split; solve [assumption | reflexivity | auto]).
  elapse_facts ms w. rewrite Heff, Hpf, Hload, Hmeta. repeat split; auto.
Qed.

(** X10. After the lookup has settled it is never made again and the
    spinner never comes back; and the record on display changes only by a
    save, to the record saved: a record, once there, is never lost, so the
    card never falls back to the prompt. *)
Theorem record_changes_only_by_save
    (result : DeploymentResult.t) (env : Env) (evs : list Event) :
  forall w w',
    pendingFetch w = 0 ->
    isLoadingMetadata (ui w) = false ->
    run result env w evs = Some w' ->
    isLoadingMetadata (ui w') = false
    /\ filter isGetTokenMetadata (effects w') = filter isGetTokenMetadata (effects w)
    /\ (forallb (fun ev => negb (isFormSave ev)) evs = true ->
        tokenMetadata (ui w') = tokenMetadata (ui w))
    /\ (tokenMetadata (ui w) <> None ->
        tokenMetadata (ui w') <> None
        /\ metadataPanel (ui w') <> AddMetadataPrompt).
Proof.
  induction evs as [|ev evs IH]; intros w w' Hpending Hload Hrun.
  - injection Hrun as <-. repeat split; try assumption; try reflexivity.
    unfold metadataPanel. rewrite Hload.
    destruct (showMetadataForm (ui w)); [discriminate|].
    destruct (tokenMetadata (ui w)); [discriminate | contradiction].
  - apply run_cons in Hrun. destruct Hrun as (w1 & Hstep & Hrun).
    destruct (step_keeps_record result env w ev w1 Hpending Hstep)
      as (Hpending1 & Hload1 & Heff1 & Hmeta1).
    destruct (IH w1 w' Hpending1 (Hload1 Hload) Hrun) as (Hl & Heff & Hsame & Hkept).
    split; [exact Hl|]. split; [congruence|]. split.
    + cbn [forallb]. intros Hno. apply andb_prop in Hno. destruct Hno as (Hev & Hno).
      rewrite (Hsame Hno), Hmeta1. destruct ev; try reflexivity. discriminate Hev.
    + intros Hsome. apply Hkept. rewrite Hmeta1.
      destruct ev; try exact Hsome. discriminate.
Qed.

Lemma record_changes_only_by_save_witness :
  exists w',
    run sampleResult bareEnv (exec (handleMetadataSave sampleMetadata) initialWorld)
      [ClickToggleForm; ClickCopyTx; ClickToggleForm; Elapse 2000] = Some w'
    /\ tokenMetadata (ui w') = Some sampleMetadata
    /\ isLoadingMetadata (ui w') = false.
Proof.
  destruct (run sampleResult bareEnv (exec (handleMetadataSave sampleMetadata) initialWorld)
              [ClickToggleForm; ClickCopyTx; ClickToggleForm; Elapse 2000])
    as [w'|] eqn:Hrun; [|vm_compute in Hrun; discriminate Hrun].
  exists w'. split; [reflexivity|].
  destruct (record_changes_only_by_save sampleResult bareEnv
              [ClickToggleForm; ClickCopyTx; ClickToggleForm; Elapse 2000]
              (exec (handleMetadataSave sampleMetadata) initialWorld) w'
              eq_refl eq_refl Hrun)
    as (Hload & _ & Hsame & _).
  split; [rewrite (Hsame eq_refl); reflexivity | exact Hload].
Defined.

(** X11. The two halves of the component do not touch each other: a copy,
    a share, a wallet click, the settling of a share or of a wallet
    request and the passing of time leave the metadata card as it is;
    the buttons of the card, a save and the settling of the lookup leave
    the copied indicator, the timers and the clock as they are, and call
    neither the clipboard, the share sheet nor the wallet. *)
Theorem cards_are_independent
    (result : DeploymentResult.t) (env : Env) (w w' : World) (ev : Event) :
  step result env w ev = Some w' ->
  (isMetadataEvent ev = false ->
   showMetadataForm (ui w') = showMetadataForm (ui w)
   /\ tokenMetadata (ui w') = tokenMetadata (ui w)
   /\ isLoadingMetadata (ui w') = isLoadingMetadata (ui w)
   /\ metadataPanel (ui w') = metadataPanel (ui w)
   /\ pendingFetch w' = pendingFetch w)
  /\ (isMetadataEvent ev = true ->
      copied (ui w') = copied (ui w)
      /\ timers w' = timers w
      /\ clock w' = clock w
      /\ pendingShare w' = pendingShare w
      /\ pendingRequest w' = pendingRequest w
      /\ (effects w' = effects w
          \/ exists err,
               ev = FetchSettled (Rejected err)
               /\ effects w'
                  = (effects w ++ [ConsoleError "Error fetching token metadata:" err])%list)).
Proof.
  intros Hstep. step_cases Hstep.
  all: split; intros Hkind; try discriminate Hkind.
  all: unfold metadataPanel; cbn.
  all: try (repeat split; solve [reflexivity | left; reflexivity]).
  - repeat split. right. exists err. split; reflexivity.
  - elapse_facts ms w. rewrite Hform, Hmeta, Hload, Hpf. repeat split.
Qed.

Lemma cards_are_independent_witness :
  exists w',
    step sampleResult bareEnv (mount sampleResult bareEnv) ClickCopyAddress = Some w'
    /\ metadataPanel (ui w') = metadataPanel (ui (mount sampleResult bareEnv)).
Proof.
  eexists. split; [vm_compute; reflexivity|].
  apply (proj1 (cards_are_independent sampleResult bareEnv
                  (mount sampleResult bareEnv) _ ClickCopyAddress eq_refl) eq_refl).
Defined.

(** ** Rendering *)

Lemma substring_0_length (s : string) : substring 0 (String.length s) s = s.
Proof.
  induction s as [|c s IH]; cbn; [reflexivity | now rewrite IH].
Qed.

Lemma slice_whole (s : string) (n : nat) :
  String.length s <= n -> slice s 0 (Z.of_nat n) = s.
Proof.
  intros Hlen. unfold slice, clamp_index.
  replace (0 <? 0)%Z with false by reflexivity.
  destruct (Z.ltb_spec (Z.of_nat n) 0) as [Hneg|_]; [lia|].
  rewrite (Z.min_l 0) by lia. rewrite (Z.min_r (Z.of_nat n)) by lia.
  destruct (Z.leb_spec (Z.of_nat (String.length s)) 0) as [Hle|Hgt].
  - destruct s; [reflexivity | cbn in Hle; lia].
  - cbn [Z.to_nat]. rewrite Z.sub_0_r, Nat2Z.id. apply substring_0_length.
Qed.

(** X12. The three dots do not depend on anything being cut: a
    transaction hash of 20 characters or fewer, the empty one included, is
    rendered whole and still followed by "...". *)
Theorem renderedTransactionHash_short (result : DeploymentResult.t) :
  String.length (DeploymentResult.transactionHash result) <= 20 ->
  renderedTransactionHash result = DeploymentResult.transactionHash result ++ "...".
Proof.
  intros Hlen. unfold renderedTransactionHash.
  change 20%Z with (Z.of_nat 20). now rewrite slice_whole.
Qed.

Lemma renderedTransactionHash_short_witness :
  renderedTransactionHash
    {| DeploymentResult.contractAddress := "0xabc";
       DeploymentResult.transactionHash := "0xdeadbeef";
       DeploymentResult.network := sampleNetwork;
       DeploymentResult.explorerUrl := "";
       DeploymentResult.gasUsed := "0";
       DeploymentResult.deploymentCost := "0";
       DeploymentResult.tokenName := None;
       DeploymentResult.tokenSymbol := None;
       DeploymentResult.symbol := None;
       DeploymentResult.decimals := None |}
  = "0xdeadbeef...".
Proof.
  apply (renderedTransactionHash_short
           {| DeploymentResult.contractAddress := "0xabc";
              DeploymentResult.transactionHash := "0xdeadbeef";
              DeploymentResult.network := sampleNetwork;
              DeploymentResult.explorerUrl := "";
              DeploymentResult.gasUsed := "0";
              DeploymentResult.deploymentCost := "0";
              DeploymentResult.tokenName := None;
              DeploymentResult.tokenSymbol := None;
              DeploymentResult.symbol := None;
              DeploymentResult.decimals := None |}).
  cbn. lia.
Defined.

Lemma truthy_string_nonempty (s : string) : truthy s = true <-> s <> "".
Proof.
  unfold truthy, Truthy_string. rewrite negb_true_iff. apply String.eqb_neq.
Qed.

(** X13. The read view shows nothing empty: with a token name (symbol) in
    the result the heading (sub-heading) is never blank, whatever the
    record holds; a logo is only drawn with a source and an alt text; and a
    link is only drawn with a target, under one of the three labels. *)
Theorem read_view_shows_nothing_empty
    (result : DeploymentResult.t) (m : TokenMetadata.t) :
  (truthy (DeploymentResult.tokenName result) = true ->
   truthy (viewHeading result m) = true)
  /\ (truthy (DeploymentResult.tokenSymbol result) = true ->
      truthy (viewSubheading result m) = true)
  /\ (forall src alt, viewLogo m = Some (src, alt) -> src <> "" /\ alt <> "")
  /\ (forall label target,
        In (label, target) (viewLinks m) ->
        target <> "" /\ In label ["Website"; "Twitter"; "Telegram"]).
Proof.
  split; [|split; [|split]].
  - intros Hname. unfold viewHeading, js_or_optional.
    destruct (truthy (TokenMetadata.name m)) eqn:Hm; assumption.
  - intros Hsym. unfold viewSubheading, js_or_optional.
    destruct (truthy (TokenMetadata.symbol m)) eqn:Hm; assumption.
  - intros src alt. unfold viewLogo.
    destruct (TokenMetadata.logoUrl m) as [url|]; [|discriminate].
    destruct (truthy url) eqn:Hurl; [|discriminate].
    intros [= <- <-]. split; [now apply truthy_string_nonempty|].
    unfold js_or. destruct (TokenMetadata.name m) as [n|]; [|discriminate].
    destruct (truthy n) eqn:Hn; [now apply truthy_string_nonempty | discriminate].
  - intros label target. unfold viewLinks. rewrite !in_app_iff.
    destruct (TokenMetadata.websiteUrl m) as [u1|];
      destruct (TokenMetadata.twitterUrl m) as [u2|];
      destruct (TokenMetadata.telegramUrl m) as [u3|].
    all: try destruct (truthy u1) eqn:H1.
    all: try destruct (truthy u2) eqn:H2.
    all: try destruct (truthy u3) eqn:H3.
    all: cbn; intros Hin.
    all: repeat match goal with
           | H : _ \/ _ |- _ => destruct H
           | H : False |- _ => destruct H
           | H : (_, _) = (_, _) |- _ => injection H as <- <-
           end.
    all: split; [now apply truthy_string_nonempty | cbn; auto].
Qed.

Lemma read_view_shows_nothing_empty_witness :
  truthy (viewHeading sampleResult
            {| TokenMetadata.name := Some "";
               TokenMetadata.symbol := None;
               TokenMetadata.logoUrl := None;
               TokenMetadata.description := None;
               TokenMetadata.tags := None;
               TokenMetadata.websiteUrl := Some "";
               TokenMetadata.twitterUrl := None;
               TokenMetadata.telegramUrl := None |}) = true.
Proof.
  apply (proj1 (read_view_shows_nothing_empty sampleResult _)). reflexivity.
Defined.

(** ** The effect run again *)

(** X14. The effect depends on [result.contractAddress] and runs again
    when it changes.  It starts from the state left by the previous
    address: the spinner replaces whatever the card showed, and then a
    lookup that fails brings back the record (and the form state) of the
    previous address, a lookup that finds nothing clears the record but
    leaves an open form open, and a lookup that finds a record shows it. *)
Theorem effect_rerun_starts_from_previous_state
    (result : DeploymentResult.t) (env : Env) (w : World) :
  truthy (DeploymentResult.contractAddress result) = true ->
  getTokenMetadata_call env (DeploymentResult.contractAddress result) = ReturnsPromise ->
  let w1 := exec (checkMetadata result env) w in
  metadataPanel (ui w1) = Spinner
  /\ metadataToggleLabel (ui w1) = None
  /\ effects w1
     = (effects w ++ [GetTokenMetadata (DeploymentResult.contractAddress result)])%list
  /\ pendingFetch w1 = S (pendingFetch w)
  /\ forall p, exists w2,
       step result env w1 (FetchSettled p) = Some w2
       /\ isLoadingMetadata (ui w2) = false
       /\ copied (ui w2) = copied (ui w)
       /\ match p with
          | Resolved (Some found) =>
              tokenMetadata (ui w2) = Some found
              /\ metadataPanel (ui w2) = MetadataView found
          | Resolved None =>
              tokenMetadata (ui w2) = None
              /\ showMetadataForm (ui w2) = showMetadataForm (ui w)
          | Rejected err =>
              tokenMetadata (ui w2) = tokenMetadata (ui w)
              /\ showMetadataForm (ui w2) = showMetadataForm (ui w)
              /\ effects w2
                 = (effects w1 ++ [ConsoleError "Error fetching token metadata:" err])%list
          end.
Proof.
  intros Haddr Hcall w1. subst w1. unfold exec, checkMetadata.
  rewrite Haddr. cbn. rewrite Hcall. cbn.
  repeat (split; [reflexivity|]).
  intros [[found|]|err]; eexists; (split; [reflexivity|]); cbn; repeat split.
Qed.

Lemma effect_rerun_starts_from_previous_state_witness :
  exists w2,
    step sampleResult fullEnv
      (exec (checkMetadata sampleResult fullEnv)
         (exec (handleMetadataSave sampleMetadata) initialWorld))
      (FetchSettled (Rejected "503")) = Some w2
    /\ tokenMetadata (ui w2) = Some sampleMetadata.
Proof.
  destruct (proj2 (proj2 (proj2 (proj2
              (effect_rerun_starts_from_previous_state sampleResult fullEnv
                 (exec (handleMetadataSave sampleMetadata) initialWorld)
                 eq_refl eq_refl)))) (Rejected "503"))
    as (w2 & Hstep & _ & _ & Hmeta & _).
  exists w2. split; [exact Hstep | exact Hmeta].
Defined.

(** ** The lookup over a session *)

Lemma step_lookup r e w ev w' :
  step r e w ev = Some w' ->
  filter isGetTokenMetadata (effects w') = filter isGetTokenMetadata (effects w)
  /\ (isLoadingMetadata (ui w) = true /\ pendingFetch w = 1
      \/ isLoadingMetadata (ui w) = false /\ pendingFetch w = 0 ->
      isLoadingMetadata (ui w') = true /\ pendingFetch w' = 1
      \/ isLoadingMetadata (ui w') = false /\ pendingFetch w' = 0).
Proof.
  intros Hstep. step_cases Hstep.
  all: cbn; rewrite ?filter_app; cbn; rewrite ?app_nil_r.
  all: try (split; [reflexivity | intros Hphase; exact Hphase]).
  all: try (split; [reflexivity|]; intros [(Hl & Hp)|(Hl & Hp)];
            [right; split; [reflexivity | congruence] | congruence]).
  elapse_facts ms w. rewrite Heff, Hload, Hpf. split; [reflexivity | auto].
Qed.

(** X15. A mounted component looks the metadata up exactly once when the
    contract address is not empty and never otherwise: no click, save,
    settlement or timer makes it ask again.  And the spinner shows exactly
    while that lookup is in flight. *)
Theorem lookup_made_once
    (result : DeploymentResult.t) (env : Env) (evs : list Event) (w : World) :
  run result env (mount result env) evs = Some w ->
  filter isGetTokenMetadata (effects w)
  = (if truthy (DeploymentResult.contractAddress result)
     then [GetTokenMetadata (DeploymentResult.contractAddress result)]
     else [])
  /\ (isLoadingMetadata (ui w) = true /\ pendingFetch w = 1
      \/ isLoadingMetadata (ui w) = false /\ pendingFetch w = 0)
  /\ (metadataPanel (ui w) = Spinner <-> pendingFetch w = 1).
Proof.
  intros Hrun.
  assert (Hinv :
    filter isGetTokenMetadata (effects w)
    = (if truthy (DeploymentResult.contractAddress result)
       then [GetTokenMetadata (DeploymentResult.contractAddress result)]
       else [])
    /\ (isLoadingMetadata (ui w) = true /\ pendingFetch w = 1
        \/ isLoadingMetadata (ui w) = false /\ pendingFetch w = 0)).
  { apply (run_invariant result env
             (fun x =>
                filter isGetTokenMetadata (effects x)
                = (if truthy (DeploymentResult.contractAddress result)
                   then [GetTokenMetadata (DeploymentResult.contractAddress result)]
                   else [])
                /\ (isLoadingMetadata (ui x) = true /\ pendingFetch x = 1
                    \/ isLoadingMetadata (ui x) = false /\ pendingFetch x = 0))
             (fun _ => true))
      with (evs := evs) (w := mount result env).
    - intros w0 ev w1 (Heff & Hphase) _ Hstep.
      destruct (step_lookup result env w0 ev w1 Hstep) as (Heff1 & Hphase1).
      split; [congruence | auto].
    - unfold mount, exec, checkMetadata.
      destruct (truthy (DeploymentResult.contractAddress result)).
      + cbn. destruct (getTokenMetadata_call env _); cbn; split; auto.
      + cbn. split; auto.
    - clear. induction evs; [reflexivity | assumption].
    - exact Hrun. }
  destruct Hinv as (Heff & Hphase).
  split; [exact Heff|]. split; [exact Hphase|].
  unfold metadataPanel.
  destruct Hphase as [(Hl & Hp)|(Hl & Hp)]; rewrite Hl, Hp.
  - split; reflexivity.
  - split; [|discriminate].
    destruct (showMetadataForm (ui w)); [discriminate|].
    destruct (tokenMetadata (ui w)); discriminate.
Qed.

Lemma lookup_made_once_witness :
  exists w,
    run sampleResult fullEnv (mount sampleResult fullEnv)
      [ClickCopyAddress; FetchSettled (Resolved None); ClickAddTokenMetadata;
       FormSave sampleMetadata; ClickToggleForm; Elapse 2500] = Some w
    /\ filter isGetTokenMetadata (effects w)
       = [GetTokenMetadata (DeploymentResult.contractAddress sampleResult)].
Proof.
  eexists. split; [vm_compute; reflexivity|].
  apply (lookup_made_once sampleResult fullEnv
           [ClickCopyAddress; FetchSettled (Resolved None); ClickAddTokenMetadata;
            FormSave sampleMetadata; ClickToggleForm; Elapse 2500]).
  vm_compute; reflexivity.
Defined.
